(** * a2dp_agent: a BlueZ pairing agent that only admits A2DP

    Shallow embedding of [a2dp_agent.py].  The agent's callbacks and the
    start-up coroutine are written in a small state-and-exception monad
    whose state is the process: the two logging levels the script reads or
    sets, and the chronological trace of everything the process did to the
    outside (log records, lines printed, calls on the message bus). *)

From Stdlib Require Import String Ascii List ZArith NArith Bool Lia DecimalString.
Import ListNotations.
Open Scope string_scope.

(** ** Module constants *)

Definition LOGGER_NAME := "a2dp-agent".

Definition A2DP_UUID := "0000110d-0000-1000-8000-00805f9b34fb".

Definition DBUS_PROPERTIES_INTERFACE := "org.freedesktop.DBus.Properties".

Definition BLUEZ_AGENT_INTERFACE := "org.bluez.Agent1".
Definition BLUEZ_AGENT_MANAGER_INTERFACE := "org.bluez.AgentManager1".
Definition BLUEZ_ADAPTER_INTERFACE := "org.bluez.Adapter1".

Definition BLUEZ_BUS_NAME := "org.bluez".
Definition BLUEZ_BUS_PATH := "/org/bluez".

Definition AGENT_PATH := "/local/ad2pagent".

(** ** Values, exceptions and handles *)

(** The exceptions that can travel through the script.  [DBusError] is the
    one the agent raises itself; the bus library raises it too for error
    replies, and other [Exception] subclasses ([OtherError]) for transport
    and introspection problems. *)
Inductive exn : Type :=
| KeyboardInterrupt
| DBusError (type_ text : string)
| OtherError (cls text : string).

(** Python values that cross the bus in this program. *)
Inductive value : Type :=
| VNone
| VStr (s : string)
| VInt (n : N)
| VBool (b : bool).

Inductive Variant : Type :=
| MkVariant (signature : string) (v : value).

Inductive BusType : Type := SESSION | SYSTEM.

(** [ServiceInterface.__init__] stores the interface name; the agent has no
    other attribute. *)
Record A2dpAgent : Type := { name : string }.

Record MessageBus : Type := { bus_type : BusType }.
Record Introspection : Type := { intro_bus_name : string; intro_path : string }.
Record ProxyObject : Type :=
  { po_bus_name : string; po_path : string; po_introspection : Introspection }.
Record ProxyInterface : Type := { pi_object : ProxyObject; pi_name : string }.

(** What [parser.parse_args()] hands to the rest of [main]. *)
Record Namespace : Type := { verbose : bool; device : string }.

(** Every operation the script performs on the message bus. *)
Inductive call : Type :=
| Connect (bt : BusType)
| Introspect (bus_name path : string)
| GetProxyObject (bus_name path : string)
| GetInterface (obj : ProxyObject) (iface : string)
| CallSet (on : ProxyInterface) (iface prop : string) (v : Variant)
| Export (path : string) (agent : A2dpAgent)
| CallRegisterAgent (on : ProxyInterface) (path capability : string)
| CallRequestDefaultAgent (on : ProxyInterface) (path : string)
| WaitForDisconnect.

(** ** The process *)

Inductive level : Type := DEBUG | INFO | WARNING.

Definition levelno (l : level) : N :=
  match l with DEBUG => 10 | INFO => 20 | WARNING => 30 end%N.

Inductive effect : Type :=
| ELog (lvl : level) (msg : string)
| EPrint (line : string)
| EBus (c : call)
| ETraceback (e : exn).

(** [root_level] is the root logger's level, [logger_level] the level of
    the module's own logger ([None] is NOTSET), [effects] the trace, oldest
    first. *)
Record Proc : Type :=
  { root_level : level;
    logger_level : option level;
    effects : list effect }.

Definition initial_proc : Proc :=
  {| root_level := WARNING; logger_level := None; effects := [] |}.

Definition emit (e : effect) (p : Proc) : Proc :=
  {| root_level := root_level p;
     logger_level := logger_level p;
     effects := effects p ++ [e] |}.

(** ** The monad *)

Definition Py (A : Type) : Type := Proc -> (exn + A) * Proc.

Definition ret {A} (a : A) : Py A := fun p => (inr a, p).

Definition bind {A B} (m : Py A) (k : A -> Py B) : Py B :=
  fun p =>
    match m p with
    | (inl e, p') => (inl e, p')
    | (inr a, p') => k a p'
    end.

Definition raise {A} (e : exn) : Py A := fun p => (inl e, p).

Definition try_except {A} (m : Py A) (handler : exn -> Py A) : Py A :=
  fun p =>
    match m p with
    | (inl e, p') => handler e p'
    | (inr a, p') => (inr a, p')
    end.

Declare Scope py_scope.
Delimit Scope py_scope with py.
Notation "x <- c1 ;; c2" := (bind c1 (fun x => c2))
  (at level 61, c1 at next level, right associativity) : py_scope.
Notation "c1 ;; c2" := (bind c1 (fun _ => c2))
  (at level 61, right associativity) : py_scope.
Open Scope py_scope.

(** ** Logging and printing *)

(** The [%] operator restricted to [%s] directives. *)
Fixpoint percent_format (fmt : string) (args : list string) : string :=
  match fmt with
  | String "%" (String "s" rest) =>
      match args with
      | a :: args' => a ++ percent_format rest args'
      | [] => String "%" (String "s" (percent_format rest []))
      end
  | String c rest => String c (percent_format rest args)
  | EmptyString => EmptyString
  end.

(** [str(n)] for an unsigned integer. *)
Definition str_of_N (n : N) : string := NilEmpty.string_of_uint (N.to_uint n).

Definition getEffectiveLevel (p : Proc) : level :=
  match logger_level p with
  | Some l => l
  | None => root_level p
  end.

Definition isEnabledFor (lvl : level) (p : Proc) : bool :=
  (levelno (getEffectiveLevel p) <=? levelno lvl)%N.

Definition _LOGGER_log (lvl : level) (fmt : string) (args : list string) : Py unit :=
  fun p =>
    if isEnabledFor lvl p
    then (inr tt, emit (ELog lvl (percent_format fmt args)) p)
    else (inr tt, p).

Definition _LOGGER_debug := _LOGGER_log DEBUG.
Definition _LOGGER_info := _LOGGER_log INFO.

Definition _LOGGER_setLevel (l : level) : Py unit :=
  fun p =>
    (inr tt, {| root_level := root_level p;
                logger_level := Some l;
                effects := effects p |}).

Definition logging_basicConfig (l : level) : Py unit :=
  fun p =>
    (inr tt, {| root_level := l;
                logger_level := logger_level p;
                effects := effects p |}).

(** [print(a, b, ...)]: the arguments separated by one space. *)
Definition print (args : list string) : Py unit :=
  fun p => (inr tt, emit (EPrint (String.concat " " args)) p).

(** ** class A2dpAgent *)

Definition A2dpAgent_init : A2dpAgent := {| name := BLUEZ_AGENT_INTERFACE |}.

Definition Release (self : A2dpAgent) : Py unit :=
  ret tt.

Definition AuthorizeService (self : A2dpAgent) (device uuid : string) : Py unit :=
  _LOGGER_debug "Authorize Service Device: %s, UUID: %s" [device; uuid] ;;
  if uuid =? A2DP_UUID then
    _LOGGER_info "Authorized A2DP service from device: %s." [device] ;;
    ret tt
  else
    print ["Rejecting non-A2DP service from device %s."; device] ;;
    raise (DBusError "org.bluez.Error.Rejected" "Connection rejected").

Definition RequestPinCode (self : A2dpAgent) (device : string) : Py string :=
  _LOGGER_debug "Request Pin Code Device: %s" [device] ;;
  ret "0000".

Definition DisplayPinCode (self : A2dpAgent) (device pincode : string) : Py unit :=
  _LOGGER_debug "Display Pin Code Device: %s, Code: %s" [device; pincode].

Definition RequestPasskey (self : A2dpAgent) (device : string) : Py N :=
  _LOGGER_debug "Request Passkey Device: %s" [device] ;;
  ret 0%N.

Definition DisplayPasskey (self : A2dpAgent) (device : string) (passkey _entered : N)
  : Py unit :=
  _LOGGER_debug "Display Passkey Device: %s, Passkey: %s" [device; str_of_N passkey].

Definition RequestConfirmation (self : A2dpAgent) (device : string) (passkey : N)
  : Py unit :=
  _LOGGER_debug "Request Confirmation Device: %s, Passkey: %s"
    [device; str_of_N passkey].

Definition RequestAuthorization (self : A2dpAgent) (device : string) : Py unit :=
  _LOGGER_debug "Request Authorization Device: %s" [device] ;;
  raise (DBusError "org.bluez.Error.Rejected" "Connection rejected").

Definition Cancel (self : A2dpAgent) : Py unit :=
  ret tt.

(** ** The exported interface

    [@method()] exports each method under its own name; the bus library
    routes an incoming method call to it and sends back either the value
    returned or the error raised. *)

Inductive request : Type :=
| ReqRelease
| ReqAuthorizeService (device uuid : string)
| ReqRequestPinCode (device : string)
| ReqDisplayPinCode (device pincode : string)
| ReqRequestPasskey (device : string)
| ReqDisplayPasskey (device : string) (passkey entered : N)
| ReqRequestConfirmation (device : string) (passkey : N)
| ReqRequestAuthorization (device : string)
| ReqCancel.

Definition call_method (self : A2dpAgent) (r : request) : Py value :=
  match r with
  | ReqRelease => Release self ;; ret VNone
  | ReqAuthorizeService d u => AuthorizeService self d u ;; ret VNone
  | ReqRequestPinCode d => s <- RequestPinCode self d ;; ret (VStr s)
  | ReqDisplayPinCode d c => DisplayPinCode self d c ;; ret VNone
  | ReqRequestPasskey d => n <- RequestPasskey self d ;; ret (VInt n)
  | ReqDisplayPasskey d k e => DisplayPasskey self d k e ;; ret VNone
  | ReqRequestConfirmation d k => RequestConfirmation self d k ;; ret VNone
  | ReqRequestAuthorization d => RequestAuthorization self d ;; ret VNone
  | ReqCancel => Cancel self ;; ret VNone
  end.

(** A run of incoming calls answered one after the other on the same
    process; an error reply does not stop the next call from being served. *)
Fixpoint serve (self : A2dpAgent) (rs : list request) (p : Proc)
  : list (exn + value) * Proc :=
  match rs with
  | [] => ([], p)
  | r :: rs' =>
      let '(reply, p') := call_method self r p in
      let '(replies, p'') := serve self rs' p' in
      (reply :: replies, p'')
  end.

(** ** The message bus

    The world outside decides whether an operation on the bus succeeds; it
    may look at everything the process has done so far. [None] is success,
    [Some e] makes the operation raise [e]. *)

Definition World : Type := list effect -> call -> option exn.

Definition bus_call (w : World) (c : call) : Py unit :=
  fun p =>
    match w (effects p) c with
    | Some e => (inl e, emit (EBus c) p)
    | None => (inr tt, emit (EBus c) p)
    end.

Definition MessageBus_connect (w : World) (bt : BusType) : Py MessageBus :=
  bus_call w (Connect bt) ;;
  ret {| bus_type := bt |}.

Definition bus_introspect (w : World) (bus : MessageBus) (bus_name path : string)
  : Py Introspection :=
  bus_call w (Introspect bus_name path) ;;
  ret {| intro_bus_name := bus_name; intro_path := path |}.

Definition bus_get_proxy_object (w : World) (bus : MessageBus)
  (bus_name path : string) (introspection : Introspection) : Py ProxyObject :=
  bus_call w (GetProxyObject bus_name path) ;;
  ret {| po_bus_name := bus_name; po_path := path;
         po_introspection := introspection |}.

Definition get_interface (w : World) (obj : ProxyObject) (iface : string)
  : Py ProxyInterface :=
  bus_call w (GetInterface obj iface) ;;
  ret {| pi_object := obj; pi_name := iface |}.

Definition call_set (w : World) (on : ProxyInterface) (iface prop : string)
  (v : Variant) : Py unit :=
  bus_call w (CallSet on iface prop v).

Definition bus_export (w : World) (bus : MessageBus) (path : string)
  (agent : A2dpAgent) : Py unit :=
  bus_call w (Export path agent).

Definition call_register_agent (w : World) (on : ProxyInterface)
  (path capability : string) : Py unit :=
  bus_call w (CallRegisterAgent on path capability).

Definition call_request_default_agent (w : World) (on : ProxyInterface)
  (path : string) : Py unit :=
  bus_call w (CallRequestDefaultAgent on path).

(** The trace keeps what the start-up coroutine itself does.  What the
    exported agent writes for the requests served while the coroutine is
    suspended is given by [serve], from whatever state the process is in. *)
Definition bus_wait_for_disconnect (w : World) (bus : MessageBus) : Py unit :=
  bus_call w WaitForDisconnect.

(** ** _run and main *)

Definition _run (w : World) (args : Namespace) : Py unit :=
  _LOGGER_info "Connecting to system bus." [] ;;
  bus <- MessageBus_connect w SYSTEM ;;

  let device_path := BLUEZ_BUS_PATH ++ "/" ++ device args in

  introspection <- bus_introspect w bus BLUEZ_BUS_NAME device_path ;;
  proxy_object <- bus_get_proxy_object w bus BLUEZ_BUS_NAME device_path introspection ;;
  properties <- get_interface w proxy_object DBUS_PROPERTIES_INTERFACE ;;

  _LOGGER_info "Enabling infinite discovery on device: %s." [device args] ;;
  call_set w properties BLUEZ_ADAPTER_INTERFACE "DiscoverableTimeout"
    (MkVariant "u" (VInt 0)) ;;
  call_set w properties BLUEZ_ADAPTER_INTERFACE "Discoverable"
    (MkVariant "b" (VBool true)) ;;

  introspection <- bus_introspect w bus BLUEZ_BUS_NAME BLUEZ_BUS_PATH ;;
  proxy_object <- bus_get_proxy_object w bus BLUEZ_BUS_NAME BLUEZ_BUS_PATH introspection ;;
  manager <- get_interface w proxy_object BLUEZ_AGENT_MANAGER_INTERFACE ;;

  let agent := A2dpAgent_init in
  bus_export w bus AGENT_PATH agent ;;

  _LOGGER_info "Registering agent." [] ;;
  call_register_agent w manager AGENT_PATH "NoInputNoOutput" ;;
  call_request_default_agent w manager AGENT_PATH ;;

  bus_wait_for_disconnect w bus.

(** [asyncio.run] drives the coroutine to its end and hands over its result
    or its exception; an interrupt taken while the coroutine is suspended
    comes out of it as [KeyboardInterrupt]. *)
Definition asyncio_run {A} (coro : Py A) : Py A := coro.

Definition main (w : World) (args : Namespace) : Py unit :=
  logging_basicConfig INFO ;;
  (if verbose args then _LOGGER_setLevel DEBUG else ret tt) ;;
  try_except (asyncio_run (_run w args))
    (fun e =>
       match e with
       | KeyboardInterrupt => ret tt
       | _ => raise e
       end).

(** The interpreter around [main()]: a normal return ends the process with
    status 0; an exception nobody caught is reported on standard error and
    the status is 1 (130 for an interrupt nobody caught). *)
Definition python (w : World) (args : Namespace) : Z * list effect :=
  match main w args initial_proc with
  | (inr _, p) => (0%Z, effects p)
  | (inl KeyboardInterrupt, p) => (130%Z, (effects p ++ [ETraceback KeyboardInterrupt])%list)
  | (inl e, p) => (1%Z, (effects p ++ [ETraceback e])%list)
  end.

(** ** Reading traces *)

(** The start-up coroutine is straight-line code: each statement writes a
    log record or performs one bus operation. *)
Inductive stmt : Type :=
| SLog (lvl : level) (fmt : string) (args : list string)
| SCall (c : call).

Definition step (w : World) (s : stmt) : Py unit :=
  match s with
  | SLog lvl fmt args => _LOGGER_log lvl fmt args
  | SCall c => bus_call w c
  end.

Fixpoint exec (w : World) (ss : list stmt) : Py unit :=
  match ss with
  | [] => ret tt
  | s :: ss' => step w s ;; exec w ss'
  end.

Fixpoint calls_of (ss : list stmt) : list call :=
  match ss with
  | [] => []
  | SCall c :: ss' => c :: calls_of ss'
  | SLog _ _ _ :: ss' => calls_of ss'
  end.

Fixpoint bus_calls (t : list effect) : list call :=
  match t with
  | [] => []
  | EBus c :: t' => c :: bus_calls t'
  | _ :: t' => bus_calls t'
  end.

Definition adapter_path (args : Namespace) : string :=
  BLUEZ_BUS_PATH ++ "/" ++ device args.

Definition adapter_object (args : Namespace) : ProxyObject :=
  {| po_bus_name := BLUEZ_BUS_NAME;
     po_path := adapter_path args;
     po_introspection :=
       {| intro_bus_name := BLUEZ_BUS_NAME; intro_path := adapter_path args |} |}.

Definition adapter_properties (args : Namespace) : ProxyInterface :=
  {| pi_object := adapter_object args; pi_name := DBUS_PROPERTIES_INTERFACE |}.

Definition bluez_object : ProxyObject :=
  {| po_bus_name := BLUEZ_BUS_NAME;
     po_path := BLUEZ_BUS_PATH;
     po_introspection :=
       {| intro_bus_name := BLUEZ_BUS_NAME; intro_path := BLUEZ_BUS_PATH |} |}.

Definition agent_manager : ProxyInterface :=
  {| pi_object := bluez_object; pi_name := BLUEZ_AGENT_MANAGER_INTERFACE |}.

(** The statements of [_run], top to bottom, with the handles each bus
    operation is applied to. *)
Definition startup_script (args : Namespace) : list stmt :=
  [ SLog INFO "Connecting to system bus." [];
    SCall (Connect SYSTEM);
    SCall (Introspect BLUEZ_BUS_NAME (adapter_path args));
    SCall (GetProxyObject BLUEZ_BUS_NAME (adapter_path args));
    SCall (GetInterface (adapter_object args) DBUS_PROPERTIES_INTERFACE);
    SLog INFO "Enabling infinite discovery on device: %s." [device args];
    SCall (CallSet (adapter_properties args) BLUEZ_ADAPTER_INTERFACE
             "DiscoverableTimeout" (MkVariant "u" (VInt 0)));
    SCall (CallSet (adapter_properties args) BLUEZ_ADAPTER_INTERFACE
             "Discoverable" (MkVariant "b" (VBool true)));
    SCall (Introspect BLUEZ_BUS_NAME BLUEZ_BUS_PATH);
    SCall (GetProxyObject BLUEZ_BUS_NAME BLUEZ_BUS_PATH);
    SCall (GetInterface bluez_object BLUEZ_AGENT_MANAGER_INTERFACE);
    SCall (Export AGENT_PATH A2dpAgent_init);
    SLog INFO "Registering agent." [];
    SCall (CallRegisterAgent agent_manager AGENT_PATH "NoInputNoOutput");
    SCall (CallRequestDefaultAgent agent_manager AGENT_PATH);
    SCall WaitForDisconnect ].

(** Lookups (introspection, proxy objects, interfaces) only read; the other
    bus operations act on the bus, on the adapter or on the agent manager. *)
Definition is_lookup (c : call) : bool :=
  match c with
  | Introspect _ _ | GetProxyObject _ _ | GetInterface _ _ => true
  | _ => false
  end.

Definition acting (cs : list call) : list call :=
  filter (fun c => negb (is_lookup c)) cs.

(** The order of start-up as the design describes it. *)
Definition startup_order (args : Namespace) : list call :=
  [ Connect SYSTEM;
    CallSet (adapter_properties args) BLUEZ_ADAPTER_INTERFACE
      "DiscoverableTimeout" (MkVariant "u" (VInt 0));
    CallSet (adapter_properties args) BLUEZ_ADAPTER_INTERFACE
      "Discoverable" (MkVariant "b" (VBool true));
    Export AGENT_PATH A2dpAgent_init;
    CallRegisterAgent agent_manager AGENT_PATH "NoInputNoOutput";
    CallRequestDefaultAgent agent_manager AGENT_PATH;
    WaitForDisconnect ].

(** Resolving the adapter and making it discoverable. *)
Definition adapter_setup (args : Namespace) : list call :=
  [ Introspect BLUEZ_BUS_NAME (adapter_path args);
    GetProxyObject BLUEZ_BUS_NAME (adapter_path args);
    GetInterface (adapter_object args) DBUS_PROPERTIES_INTERFACE;
    CallSet (adapter_properties args) BLUEZ_ADAPTER_INTERFACE
      "DiscoverableTimeout" (MkVariant "u" (VInt 0));
    CallSet (adapter_properties args) BLUEZ_ADAPTER_INTERFACE
      "Discoverable" (MkVariant "b" (VBool true)) ].

(** The three operations that make this process the agent. *)
Definition is_registration (c : call) : bool :=
  match c with
  | Export _ _ | CallRegisterAgent _ _ _ | CallRequestDefaultAgent _ _ => true
  | _ => false
  end.

(** What a registration operation says about the agent: its object path and,
    for register-agent, the capability. *)
Definition registers_as (path capability : string) (c : call) : Prop :=
  match c with
  | Export q _ => q = path
  | CallRegisterAgent _ q cap => q = path /\ cap = capability
  | CallRequestDefaultAgent _ q => q = path
  | _ => True
  end.

(** A callback only talks: what it adds to the trace is log records and
    printed lines. *)
Definition is_output (e : effect) : bool :=
  match e with
  | ELog _ _ | EPrint _ => true
  | _ => false
  end.

(** [p'] is [p] after some talking: same logging levels, and a trace that
    grew by log records and printed lines only. *)
Definition only_output (p p' : Proc) : Prop :=
  root_level p' = root_level p /\
  logger_level p' = logger_level p /\
  exists t, effects p' = (effects p ++ t)%list /\ forallb is_output t = true.

(** The state [main] has built when it starts the coroutine. *)
Definition configured (args : Namespace) : Proc :=
  {| root_level := INFO;
     logger_level := if verbose args then Some DEBUG else None;
     effects := [] |}.

(** In a run that started in [p] and added [t] to the trace, operation [c]
    was attempted and the world answered it with the error [e]. *)
Definition fails_at (w : World) (p : Proc) (t : list effect) (c : call) (e : exn)
  : Prop :=
  exists t1 t2,
    t = (t1 ++ EBus c :: t2)%list /\ w (effects p ++ t1)%list c = Some e.

Definition is_traceback (e : effect) : bool :=
  match e with
  | ETraceback _ => true
  | _ => false
  end.

(** ASCII lower-casing, to speak of strings that differ in letter case only. *)
Definition lower_ascii (c : ascii) : ascii :=
  let n := N_of_ascii c in
  if ((65 <=? n) && (n <=? 90))%N then ascii_of_N (n + 32) else c.

Fixpoint lower (s : string) : string :=
  match s with
  | EmptyString => EmptyString
  | String c s' => String (lower_ascii c) (lower s')
  end.

(** ** Some worlds *)

(** Nothing ever fails and the connection is closed in the end. *)
Definition calm : World := fun _ _ => None.

(** The operator interrupts the process while it waits. *)
Definition interrupted : World :=
  fun _ c =>
    match c with
    | WaitForDisconnect => Some KeyboardInterrupt
    | _ => None
    end.

(** BlueZ knows no object at the adapter's path. *)
Definition unknown_adapter : World :=
  fun _ c =>
    match c with
    | Introspect _ path =>
        if path =? BLUEZ_BUS_PATH then None
        else Some (DBusError "org.freedesktop.DBus.Error.UnknownObject"
                     "Unknown object /org/bluez/hci0")
    | _ => None
    end.

(** The adapter refuses to become discoverable. *)
Definition stubborn_adapter : World :=
  fun _ c =>
    match c with
    | CallSet _ _ "Discoverable" _ =>
        Some (DBusError "org.bluez.Error.Failed" "Not Powered")
    | _ => None
    end.

Definition hci0 : Namespace := {| verbose := false; device := "hci0" |}.
Definition hci0_verbose : Namespace := {| verbose := true; device := "hci0" |}.

Definition UPPER_A2DP_UUID := "0000110D-0000-1000-8000-00805F9B34FB".

(** ** More ways to read a trace *)


(** Where a bus operation of the start-up for [args] may go and what it may
    carry: the system bus, the objects of BlueZ, the two discoverability
    properties of the adapter, the agent manager, an agent that implements
    the agent interface. *)
Definition well_aimed (args : Namespace) (c : call) : Prop :=
  match c with
  | Connect bt => bt = SYSTEM
  | Introspect n path | GetProxyObject n path =>
      n = "org.bluez" /\
      (path = "/org/bluez/" ++ device args \/ path = "/org/bluez")
  | GetInterface obj iface =>
      (po_path obj = "/org/bluez/" ++ device args /\
       iface = "org.freedesktop.DBus.Properties") \/
      (po_path obj = "/org/bluez" /\ iface = "org.bluez.AgentManager1")
  | CallSet on iface prop v =>
      po_bus_name (pi_object on) = "org.bluez" /\
      po_path (pi_object on) = "/org/bluez/" ++ device args /\
      pi_name on = "org.freedesktop.DBus.Properties" /\
      iface = "org.bluez.Adapter1" /\
      ((prop = "DiscoverableTimeout" /\ v = MkVariant "u" (VInt 0)) \/
       (prop = "Discoverable" /\ v = MkVariant "b" (VBool true)))
  | Export _ agent => name agent = "org.bluez.Agent1"
  | CallRegisterAgent on _ _ | CallRequestDefaultAgent on _ =>
      po_bus_name (pi_object on) = "org.bluez" /\
      po_path (pi_object on) = "/org/bluez" /\
      pi_name on = "org.bluez.AgentManager1"
  | WaitForDisconnect => True
  end.

(** ** More worlds *)

(** The system bus cannot be reached. *)
Definition no_bus : World :=
  fun _ c =>
    match c with
    | Connect _ => Some (OtherError "FileNotFoundError" "No such file or directory")
    | _ => None
    end.


(** The agent manager refuses the registration. *)
Definition registration_refused : World :=
  fun _ c =>
    match c with
    | CallRegisterAgent _ _ _ =>
        Some (DBusError "org.bluez.Error.AlreadyExists" "Already Exists")
    | _ => None
    end.


(** * Properties *)

(** ** The monad and the logger *)

Lemma bind_log {B} lvl fmt args (k : unit -> Py B) p :
  bind (_LOGGER_log lvl fmt args) k p =
  k tt (if isEnabledFor lvl p
        then emit (ELog lvl (percent_format fmt args)) p else p).
Proof.
  unfold bind, _LOGGER_log. destruct (isEnabledFor lvl p); reflexivity.
Qed.

Lemma bind_print {B} args (k : unit -> Py B) p :
  bind (print args) k p = k tt (emit (EPrint (String.concat " " args)) p).
Proof. reflexivity. Qed.

Lemma only_output_refl p : only_output p p.
Proof.
  repeat split. exists []. split; [now rewrite app_nil_r | reflexivity].
Qed.

Lemma only_output_trans p q r :
  only_output p q -> only_output q r -> only_output p r.
Proof.
  intros (R1 & L1 & t1 & E1 & O1) (R2 & L2 & t2 & E2 & O2).
  split; [congruence | split; [congruence |]].
  exists (t1 ++ t2)%list. split.
  - rewrite E2, E1, app_assoc. reflexivity.
  - rewrite forallb_app, O1, O2. reflexivity.
Qed.

Lemma only_output_emit e p : is_output e = true -> only_output p (emit e p).
Proof.
  intros H. repeat split. exists [e]. split; [reflexivity |].
  simpl. now rewrite H.
Qed.

(** Unfolds a callback down to the logger tests and settles them. *)
Ltac callback :=
  unfold call_method, Release, AuthorizeService, RequestPinCode, DisplayPinCode,
    RequestPasskey, DisplayPasskey, RequestConfirmation, RequestAuthorization,
    Cancel, _LOGGER_debug, _LOGGER_info, _LOGGER_log, print, bind, ret, raise;
  cbv beta iota;
  repeat (match goal with
          | |- context [isEnabledFor ?l ?p] => destruct (isEnabledFor l p)
          | |- context [String.eqb ?a ?b] => destruct (String.eqb a b)
          end; cbv beta iota);
  cbn [fst snd].

(** Peels the records a callback wrote off the final state. *)
Ltac talks :=
  repeat first
    [ apply only_output_refl
    | eapply only_output_trans; [ | apply only_output_emit; reflexivity ] ].

(** ** The callbacks *)

Lemma AuthorizeService_result self device uuid p :
  fst (AuthorizeService self device uuid p) =
  if uuid =? A2DP_UUID then inr tt
  else inl (DBusError "org.bluez.Error.Rejected" "Connection rejected").
Proof.
  unfold AuthorizeService, _LOGGER_debug, _LOGGER_info.
  rewrite bind_log. destruct (uuid =? A2DP_UUID).
  - rewrite bind_log. reflexivity.
  - rewrite bind_print. reflexivity.
Qed.

Lemma call_method_stateless self1 self2 r p1 p2 :
  fst (call_method self1 r p1) = fst (call_method self2 r p2).
Proof.
  destruct r as [ | d uuid | d | d c | d | d k n | d k | d | ];
    callback; reflexivity.
Qed.

Lemma call_method_only_output self r p :
  only_output p (snd (call_method self r p)).
Proof.
  destruct r as [ | d uuid | d | d c | d | d k n | d k | d | ];
    callback; talks.
Qed.

Lemma serve_only_output self rs :
  forall p, only_output p (snd (serve self rs p)).
Proof.
  induction rs as [|r rs IH]; intros p; simpl.
  - apply only_output_refl.
  - pose proof (call_method_only_output self r p) as H.
    destruct (call_method self r p) as [reply p'].
    specialize (IH p').
    destruct (serve self rs p') as [replies p'']. simpl in *.
    eapply only_output_trans; eassumption.
Qed.

Lemma AuthorizeService_allows self device uuid p :
  uuid = A2DP_UUID -> fst (AuthorizeService self device uuid p) = inr tt.
Proof.
  intros ->. rewrite AuthorizeService_result, String.eqb_refl. reflexivity.
Qed.

Lemma AuthorizeService_rejects self device uuid p :
  uuid <> A2DP_UUID ->
  fst (AuthorizeService self device uuid p) =
  inl (DBusError "org.bluez.Error.Rejected" "Connection rejected").
Proof.
  intros H. rewrite AuthorizeService_result.
  destruct (String.eqb_spec uuid A2DP_UUID); [contradiction | reflexivity].
Qed.

(** C1. [AuthorizeService] returns normally, with no value, when the uuid is
    the A2DP identifier 0000110d-0000-1000-8000-00805f9b34fb, and raises
    org.bluez.Error.Rejected for every other uuid; the outcome is the same
    for every device (and every agent object and process state). *)
Theorem AuthorizeService_gate (self : A2dpAgent) (device uuid : string) (p : Proc) :
  A2DP_UUID = "0000110d-0000-1000-8000-00805f9b34fb" /\
  (uuid = A2DP_UUID ->
   fst (AuthorizeService self device uuid p) = inr tt) /\
  (uuid <> A2DP_UUID ->
   fst (AuthorizeService self device uuid p) =
   inl (DBusError "org.bluez.Error.Rejected" "Connection rejected")) /\
  (forall self' device' p',
     fst (AuthorizeService self' device' uuid p') =
     fst (AuthorizeService self device uuid p)).
Proof.
  split; [reflexivity |].
  split; [apply AuthorizeService_allows |].
  split; [apply AuthorizeService_rejects |].
  intros self' device' p'. now rewrite !AuthorizeService_result.
Qed.

(** The first two end-to-end scenarios of the design. *)
Lemma AuthorizeService_scenarios :
  fst (AuthorizeService A2dpAgent_init "/org/bluez/hci0/dev_AA_BB"
         "0000110d-0000-1000-8000-00805f9b34fb" initial_proc) = inr tt /\
  fst (AuthorizeService A2dpAgent_init "/org/bluez/hci0/dev_AA_BB"
         "0000110a-0000-1000-8000-00805f9b34fb" initial_proc) =
  inl (DBusError "org.bluez.Error.Rejected" "Connection rejected").
Proof.
  split.
  - apply (proj1 (proj2 (AuthorizeService_gate A2dpAgent_init
                            "/org/bluez/hci0/dev_AA_BB"
                            "0000110d-0000-1000-8000-00805f9b34fb"
                            initial_proc))).
    reflexivity.
  - apply (proj1 (proj2 (proj2 (AuthorizeService_gate A2dpAgent_init
                                   "/org/bluez/hci0/dev_AA_BB"
                                   "0000110a-0000-1000-8000-00805f9b34fb"
                                   initial_proc)))).
    discriminate.
Defined.

(** C2. [RequestAuthorization] raises org.bluez.Error.Rejected for every
    device, in every process state, and whatever calls were served before;
    it never returns normally. *)
Theorem RequestAuthorization_always_rejects
  (self : A2dpAgent) (device : string) (history : list request) (p : Proc) :
  fst (RequestAuthorization self device p) =
  inl (DBusError "org.bluez.Error.Rejected" "Connection rejected") /\
  fst (RequestAuthorization self device (snd (serve self history p))) =
  inl (DBusError "org.bluez.Error.Rejected" "Connection rejected") /\
  (forall v, fst (RequestAuthorization self device p) <> inr v).
Proof.
  repeat split; try (callback; reflexivity).
  intros v. callback; discriminate.
Qed.

(** C3. [RequestPinCode] returns exactly the string 0000 and
    [RequestPasskey] exactly the number 0, for every device, in every state
    and after any calls served before (a repeated call included); neither
    raises. *)
Theorem RequestPinCode_RequestPasskey_constant
  (self : A2dpAgent) (device : string) (history : list request) (p : Proc) :
  fst (RequestPinCode self device p) = inr "0000" /\
  fst (RequestPasskey self device p) = inr 0%N /\
  fst (RequestPinCode self device (snd (serve self history p))) = inr "0000" /\
  fst (RequestPasskey self device (snd (serve self history p))) = inr 0%N /\
  fst (RequestPinCode self device (snd (RequestPinCode self device p))) =
  inr "0000" /\
  fst (RequestPasskey self device (snd (RequestPasskey self device p))) =
  inr 0%N.
Proof.
  repeat split; callback; reflexivity.
Qed.

(** C4. [Release], [DisplayPinCode], [DisplayPasskey], [RequestConfirmation]
    and [Cancel] return normally with no value, for all arguments and in
    every state; the reply the bus sends back for each is empty. *)
Theorem informational_callbacks_return_nothing
  (self : A2dpAgent) (device pincode : string) (passkey entered : N) (p : Proc) :
  (fst (Release self p) = inr tt /\
   fst (DisplayPinCode self device pincode p) = inr tt /\
   fst (DisplayPasskey self device passkey entered p) = inr tt /\
   fst (RequestConfirmation self device passkey p) = inr tt /\
   fst (Cancel self p) = inr tt) /\
  (fst (call_method self ReqRelease p) = inr VNone /\
   fst (call_method self (ReqDisplayPinCode device pincode) p) = inr VNone /\
   fst (call_method self (ReqDisplayPasskey device passkey entered) p) =
   inr VNone /\
   fst (call_method self (ReqRequestConfirmation device passkey) p) =
   inr VNone /\
   fst (call_method self ReqCancel p) = inr VNone).
Proof.
  repeat split; callback; reflexivity.
Qed.

(** C9. Every callback is stateless and deterministic: the reply to a
    request is the same in any two process states (and for any agent
    object), a callback leaves the logging levels as they were and adds
    nothing but log records and printed lines to the trace, and the reply
    does not depend on the calls served before. *)
Theorem callbacks_stateless (self : A2dpAgent) (r : request) :
  (forall self' p1 p2,
     fst (call_method self r p1) = fst (call_method self' r p2)) /\
  (forall p, only_output p (snd (call_method self r p))) /\
  (forall history p,
     fst (call_method self r (snd (serve self history p))) =
     fst (call_method self r p) /\
     only_output p (snd (serve self history p))).
Proof.
  split; [intros; apply call_method_stateless |].
  split; [intros; apply call_method_only_output |].
  intros history p. split.
  - apply call_method_stateless.
  - apply serve_only_output.
Qed.

(** C10. The gate of [AuthorizeService] is an exact, case-sensitive
    comparison with the lower-case constant: the upper-case spelling of the
    A2DP identifier, which differs from it in letter case only, is rejected
    with org.bluez.Error.Rejected, and so is every other string that would
    equal the constant only after lower-casing. *)
Theorem AuthorizeService_case_sensitive
  (self : A2dpAgent) (device : string) (p : Proc) :
  lower A2DP_UUID = A2DP_UUID /\
  lower UPPER_A2DP_UUID = A2DP_UUID /\
  UPPER_A2DP_UUID <> A2DP_UUID /\
  fst (AuthorizeService self device UPPER_A2DP_UUID p) =
  inl (DBusError "org.bluez.Error.Rejected" "Connection rejected") /\
  (forall uuid,
     lower uuid = A2DP_UUID -> uuid <> A2DP_UUID ->
     fst (AuthorizeService self device uuid p) =
     inl (DBusError "org.bluez.Error.Rejected" "Connection rejected")).
Proof.
  split; [reflexivity |].
  split; [reflexivity |].
  split; [discriminate |].
  split.
  - apply AuthorizeService_rejects. discriminate.
  - intros uuid _ H. now apply AuthorizeService_rejects.
Qed.

(** ** Start-up as a script *)

Lemma bind_bus_call {B} w c (k : unit -> Py B) p :
  bind (bus_call w c) k p =
  match w (effects p) c with
  | Some e => (inl e, emit (EBus c) p)
  | None => k tt (emit (EBus c) p)
  end.
Proof. unfold bind, bus_call. destruct (w (effects p) c); reflexivity. Qed.

Lemma bind_assoc {A B C} (m : Py A) (f : A -> Py B) (g : B -> Py C) p :
  bind (bind m f) g p = bind m (fun a => bind (f a) g) p.
Proof. unfold bind. destruct (m p) as [[e|a] p']; reflexivity. Qed.

Lemma bind_ret {A B} (a : A) (k : A -> Py B) p : bind (ret a) k p = k a p.
Proof. reflexivity. Qed.

Lemma exec_log w lvl fmt args ss p :
  exec w (SLog lvl fmt args :: ss) p =
  exec w ss (if isEnabledFor lvl p
             then emit (ELog lvl (percent_format fmt args)) p else p).
Proof. simpl. apply bind_log. Qed.

Lemma exec_call w c ss p :
  exec w (SCall c :: ss) p =
  match w (effects p) c with
  | Some e => (inl e, emit (EBus c) p)
  | None => exec w ss (emit (EBus c) p)
  end.
Proof. simpl. apply bind_bus_call. Qed.

(** One statement of [_run] against one statement of the script. *)
Ltac run_step :=
  first
    [ rewrite bind_log, exec_log
    | rewrite bind_assoc, bind_bus_call, exec_call;
      match goal with
      | |- match ?w ?h ?c with _ => _ end = _ =>
          destruct (w h c); [reflexivity | rewrite bind_ret]
      end
    | rewrite bind_bus_call, exec_call;
      match goal with
      | |- match ?w ?h ?c with _ => _ end = _ =>
          destruct (w h c); [reflexivity |]
      end ].

Lemma _run_exec w args p :
  _run w args p = exec w (startup_script args) p.
Proof.
  unfold _run, startup_script, _LOGGER_info,
    MessageBus_connect, bus_introspect, bus_get_proxy_object, get_interface,
    call_set, bus_export, call_register_agent, call_request_default_agent,
    bus_wait_for_disconnect, adapter_properties, adapter_object, adapter_path,
    agent_manager, bluez_object.
  cbv zeta.
  do 15 run_step.
  unfold exec, step, bind, bus_call, ret.
  destruct (w _ _); reflexivity.
Qed.

Lemma bus_calls_app t1 t2 :
  bus_calls (t1 ++ t2) = (bus_calls t1 ++ bus_calls t2)%list.
Proof.
  induction t1 as [|[lvl msg|line|c|e] t1 IH]; simpl; congruence.
Qed.

(** What a script leaves in the trace is a prefix of its bus operations,
    interleaved with its log records; the prefix is the whole when the script
    ran to its end. *)
Lemma exec_prefix w ss :
  forall p, exists t rest,
    effects (snd (exec w ss p)) = (effects p ++ t)%list /\
    calls_of ss = (bus_calls t ++ rest)%list /\
    forallb (fun e => negb (is_traceback e)) t = true /\
    (fst (exec w ss p) = inr tt -> rest = []).
Proof.
  induction ss as [|[lvl fmt args|c] ss IH]; intros p.
  - exists [], []. simpl. rewrite app_nil_r. auto.
  - rewrite exec_log.
    destruct (isEnabledFor lvl p).
    + destruct (IH (emit (ELog lvl (percent_format fmt args)) p))
        as (t & rest & Ht & Hc & Hn & Hr).
      exists (ELog lvl (percent_format fmt args) :: t), rest.
      simpl in *. rewrite Ht, <- app_assoc. auto.
    + destruct (IH p) as (t & rest & Ht & Hc & Hn & Hr).
      exists t, rest. auto.
  - rewrite exec_call.
    destruct (w (effects p) c) as [e|].
    + exists [EBus c], (calls_of ss). simpl.
      repeat split; auto. discriminate.
    + destruct (IH (emit (EBus c) p)) as (t & rest & Ht & Hc & Hn & Hr).
      exists (EBus c :: t), rest.
      simpl in *. rewrite Ht, <- app_assoc, Hc. auto.
Qed.

(** A script that contains an operation the world always refuses stops with
    an error at that operation at the latest. *)
Lemma exec_fails w c e ss :
  (forall h, w h c = Some e) ->
  forall pre post p,
    calls_of ss = (pre ++ c :: post)%list ->
    exists e' t rest,
      fst (exec w ss p) = inl e' /\
      effects (snd (exec w ss p)) = (effects p ++ t)%list /\
      (pre ++ [c])%list = (bus_calls t ++ rest)%list.
Proof.
  intros Hw.
  induction ss as [|[lvl fmt args|c0] ss IH]; intros pre post p Hsplit.
  - simpl in Hsplit. destruct pre; discriminate.
  - rewrite exec_log. simpl in Hsplit.
    destruct (isEnabledFor lvl p).
    + destruct (IH pre post (emit (ELog lvl (percent_format fmt args)) p) Hsplit)
        as (e' & t & rest & Hr & Ht & Hc).
      exists e', (ELog lvl (percent_format fmt args) :: t), rest.
      simpl in *. rewrite Ht, <- app_assoc. auto.
    + apply IH with (post := post). assumption.
  - rewrite exec_call. simpl in Hsplit.
    destruct pre as [|c1 pre].
    + simpl in Hsplit. injection Hsplit as -> _.
      rewrite Hw. exists e, [EBus c], []. auto.
    + simpl in Hsplit. injection Hsplit as -> Hsplit.
      destruct (w (effects p) c1) as [e1|].
      * exists e1, [EBus c1], (pre ++ [c])%list. auto.
      * destruct (IH pre post (emit (EBus c1) p) Hsplit)
          as (e' & t & rest & Hr & Ht & Hc).
        exists e', (EBus c1 :: t), rest.
        simpl in *. rewrite Ht, <- app_assoc, Hc. auto.
Qed.

(** An element that sits at the end of a list, and nowhere else in it, is
    reached by no proper prefix. *)
Lemma prefix_reaching_last {A} (l a b : list A) (x : A) :
  (l ++ [x] = a ++ b)%list -> ~ In x l -> In x a -> b = [].
Proof.
  intros Heq Hnot Hin.
  destruct b as [|y b] using rev_ind; [reflexivity |].
  rewrite app_assoc in Heq. apply app_inj_tail in Heq as [-> _].
  exfalso. apply Hnot, in_or_app. now left.
Qed.

Lemma adapter_setup_split args c :
  In c (adapter_setup args) ->
  exists pre post,
    calls_of (startup_script args) = (pre ++ c :: post)%list /\
    forallb (fun c' => negb (is_registration c')) (pre ++ [c]) = true.
Proof.
  intros Hin.
  set (cs := calls_of (startup_script args)).
  simpl in Hin.
  destruct Hin as [<-|[<-|[<-|[<-|[<-|[]]]]]].
  - exists (firstn 1 cs), (skipn 2 cs). split; reflexivity.
  - exists (firstn 2 cs), (skipn 3 cs). split; reflexivity.
  - exists (firstn 3 cs), (skipn 4 cs). split; reflexivity.
  - exists (firstn 4 cs), (skipn 5 cs). split; reflexivity.
  - exists (firstn 5 cs), (skipn 6 cs). split; reflexivity.
Qed.

Lemma acting_startup_script args :
  acting (calls_of (startup_script args)) = startup_order args.
Proof. reflexivity. Qed.

Lemma startup_script_registers args :
  Forall (registers_as AGENT_PATH "NoInputNoOutput")
    (calls_of (startup_script args)).
Proof. simpl. repeat constructor. Qed.

(** An error that comes out of a script was raised by the world. *)
Lemma exec_error_from_world w ss :
  forall p e, fst (exec w ss p) = inl e -> exists h c, w h c = Some e.
Proof.
  induction ss as [|[lvl fmt args|c] ss IH]; intros p e H.
  - discriminate.
  - rewrite exec_log in H. eapply IH, H.
  - rewrite exec_call in H.
    destruct (w (effects p) c) as [e0|] eqn:Hw.
    + simpl in H. injection H as <-. eauto.
    + eapply IH, H.
Qed.

(** When the last statement of a script is a bus operation that occurs
    nowhere before, the trace that shows it ends with it. *)
Lemma exec_last_call w c ss :
  ~ In c (calls_of ss) ->
  forall p t,
    effects (snd (exec w (ss ++ [SCall c]) p)) = (effects p ++ t)%list ->
    In c (bus_calls t) ->
    exists t0, t = (t0 ++ [EBus c])%list.
Proof.
  induction ss as [|[lvl fmt args|c0] ss IH]; intros Hnot p t Ht Hin.
  - exists []. simpl app in Ht. rewrite exec_call in Ht.
    destruct (w (effects p) c); simpl in Ht;
      apply app_inv_head in Ht; now subst.
  - simpl app in Ht. rewrite exec_log in Ht.
    destruct (isEnabledFor lvl p).
    + destruct (exec_prefix w (ss ++ [SCall c])
                  (emit (ELog lvl (percent_format fmt args)) p))
        as (t1 & rest & Ht1 & _).
      rewrite Ht1 in Ht. simpl in Ht. rewrite <- app_assoc in Ht.
      apply app_inv_head in Ht. subst t. simpl in Hin.
      destruct (IH Hnot _ _ Ht1 Hin) as [t0 ->].
      now exists (ELog lvl (percent_format fmt args) :: t0).
    + now apply (IH Hnot p t).
  - simpl in Hnot. simpl app in Ht. rewrite exec_call in Ht.
    destruct (w (effects p) c0).
    + simpl in Ht. apply app_inv_head in Ht. subst t.
      simpl in Hin. destruct Hin as [->|[]]. exfalso. apply Hnot. now left.
    + destruct (exec_prefix w (ss ++ [SCall c]) (emit (EBus c0) p))
        as (t1 & rest & Ht1 & _).
      rewrite Ht1 in Ht. simpl in Ht. rewrite <- app_assoc in Ht.
      apply app_inv_head in Ht. subst t. simpl in Hin.
      destruct Hin as [->|Hin]; [exfalso; apply Hnot; now left |].
      assert (Hnot' : ~ In c (calls_of ss)) by (intro; apply Hnot; now right).
      destruct (IH Hnot' _ _ Ht1 Hin) as [t0 ->].
      now exists (EBus c0 :: t0).
Qed.

Lemma startup_script_waits_last args :
  startup_script args =
  (removelast (startup_script args) ++ [SCall WaitForDisconnect])%list /\
  ~ In WaitForDisconnect (calls_of (removelast (startup_script args))).
Proof.
  split; [reflexivity |].
  simpl. intros H.
  repeat (destruct H as [H|H]; [discriminate |]). exact H.
Qed.

Lemma startup_calls_wait_last args :
  calls_of (startup_script args) =
  (calls_of (removelast (startup_script args)) ++ [WaitForDisconnect])%list.
Proof. reflexivity. Qed.

(** ** main and the interpreter *)

Lemma main_run w args :
  main w args initial_proc =
  match _run w args (configured args) with
  | (inl KeyboardInterrupt, p) => (inr tt, p)
  | r => r
  end.
Proof.
  unfold main, bind, logging_basicConfig, try_except, asyncio_run, configured.
  destruct (verbose args); simpl;
    match goal with
    | |- context [_run w args ?q] => destruct (_run w args q) as [[[| |]|[]] p']
    end; reflexivity.
Qed.

Lemma python_run w args :
  python w args =
  match _run w args (configured args) with
  | (inr _, p) => (0%Z, effects p)
  | (inl KeyboardInterrupt, p) => (0%Z, effects p)
  | (inl e, p) => (1%Z, (effects p ++ [ETraceback e])%list)
  end.
Proof.
  unfold python. rewrite main_run.
  destruct (_run w args (configured args)) as [[[| |]|[]] p']; reflexivity.
Qed.

Lemma _run_no_traceback w args :
  forallb (fun e => negb (is_traceback e))
    (effects (snd (_run w args (configured args)))) = true.
Proof.
  rewrite _run_exec.
  destruct (exec_prefix w (startup_script args) (configured args))
    as (t & rest & Ht & _ & Hn & _).
  rewrite Ht. exact Hn.
Qed.

(** The run in which every start-up operation succeeds and the wait is cut
    short by an interrupt. *)
Lemma _run_interrupted_in_wait w args p :
  (forall h c, c <> WaitForDisconnect -> w h c = None) ->
  (forall h, w h WaitForDisconnect = Some KeyboardInterrupt) ->
  fst (_run w args p) = inl KeyboardInterrupt /\
  In (EBus WaitForDisconnect) (effects (snd (_run w args p))).
Proof.
  intros Hok Hint. rewrite _run_exec. unfold startup_script.
  repeat first
    [ rewrite exec_log
    | rewrite exec_call, Hok by discriminate ].
  rewrite exec_call, Hint. simpl. split; [reflexivity |].
  apply in_or_app. right. now left.
Qed.

(** The error of a script is the answer of the world to the operation that
    closes its trace. *)
Lemma exec_error_last w ss :
  forall p t e,
    effects (snd (exec w ss p)) = (effects p ++ t)%list ->
    fst (exec w ss p) = inl e ->
    exists t1 c,
      t = (t1 ++ [EBus c])%list /\ w (effects p ++ t1)%list c = Some e.
Proof.
  induction ss as [|[lvl fmt args|c0] ss IH]; intros p t e Ht Hr.
  - discriminate.
  - rewrite exec_log in Ht, Hr.
    destruct (isEnabledFor lvl p); [| now apply IH].
    destruct (exec_prefix w ss (emit (ELog lvl (percent_format fmt args)) p))
      as (t' & rest & Ht' & _).
    destruct (IH _ t' e Ht' Hr) as (t1 & c & -> & Hw).
    rewrite Ht' in Ht. simpl in Ht. rewrite <- app_assoc in Ht.
    apply app_inv_head in Ht.
    exists (ELog lvl (percent_format fmt args) :: t1), c. split.
    + now rewrite <- Ht.
    + simpl in Hw. now rewrite <- app_assoc in Hw.
  - rewrite exec_call in Ht, Hr.
    destruct (w (effects p) c0) as [e0|] eqn:Hw0.
    + simpl in Ht, Hr. injection Hr as ->.
      apply app_inv_head in Ht.
      exists [], c0. split; [now rewrite <- Ht |].
      now rewrite app_nil_r.
    + destruct (exec_prefix w ss (emit (EBus c0) p))
        as (t' & rest & Ht' & _).
      destruct (IH _ t' e Ht' Hr) as (t1 & c & -> & Hw).
      rewrite Ht' in Ht. simpl in Ht. rewrite <- app_assoc in Ht.
      apply app_inv_head in Ht.
      exists (EBus c0 :: t1), c. split.
      * now rewrite <- Ht.
      * simpl in Hw. now rewrite <- app_assoc in Hw.
Qed.

Lemma forallb_prefix {A} (f : A -> bool) (l a b : list A) :
  l = (a ++ b)%list -> forallb f l = true -> forallb f a = true.
Proof.
  intros -> H. rewrite forallb_app in H.
  now apply andb_true_iff in H.
Qed.

(** ** Start-up *)

(** C5. Start-up acts on the outside in this order: connect to the system
    bus; set the adapter's DiscoverableTimeout to 0, then Discoverable to
    true; export the agent; register-agent; request-default-agent; wait for
    disconnection.  Whatever the world does, the acting operations in the
    trace of [_run] are an initial part of that list (nothing out of order),
    and once the wait shows in the trace the list is complete and the wait
    is the last entry of the trace.  The operations are performed, not only
    ordered: [_run] goes on until the bus refuses an operation (when it
    raises, the trace ends with an operation the world refused, and the
    error is the world's answer), it returns [None] only after the whole
    list, and where the bus refuses nothing it does return, having performed
    all seven. *)
Theorem startup_in_order (w : World) (args : Namespace) (p : Proc) :
  exists t rest,
    effects (snd (_run w args p)) = (effects p ++ t)%list /\
    startup_order args = (acting (bus_calls t) ++ rest)%list /\
    (fst (_run w args p) = inr tt -> rest = []) /\
    (In WaitForDisconnect (bus_calls t) ->
     rest = [] /\ exists t0, t = (t0 ++ [EBus WaitForDisconnect])%list) /\
    (forall e,
       fst (_run w args p) = inl e ->
       exists t1 c,
         t = (t1 ++ [EBus c])%list /\ w (effects p ++ t1)%list c = Some e) /\
    ((forall h c, w h c = None) ->
     fst (_run w args p) = inr tt /\
     acting (bus_calls t) = startup_order args /\
     exists t0, t = (t0 ++ [EBus WaitForDisconnect])%list).
Proof.
  rewrite _run_exec.
  destruct (exec_prefix w (startup_script args) p)
    as (t & rest0 & Ht & Hc & _ & Hr).
  destruct (startup_script_waits_last args) as [E Hnot].
  assert (Hwait : In WaitForDisconnect (bus_calls t) ->
                  rest0 = [] /\
                  exists t0, t = (t0 ++ [EBus WaitForDisconnect])%list).
  { intros Hin. split.
    - rewrite startup_calls_wait_last in Hc.
      exact (prefix_reaching_last _ _ _ _ Hc Hnot Hin).
    - rewrite E in Ht. eapply exec_last_call; eassumption. }
  assert (Horder : startup_order args = (acting (bus_calls t) ++ acting rest0)%list).
  { rewrite <- acting_startup_script, Hc. apply filter_app. }
  exists t, (acting rest0).
  split; [exact Ht |].
  split; [exact Horder |].
  split.
  { intros H. now rewrite (Hr H). }
  split.
  { intros Hin. destruct (Hwait Hin) as [-> Hlast]. now split. }
  split.
  { intros e He. eapply exec_error_last; eassumption. }
  intros Hok.
  assert (Hret : fst (exec w (startup_script args) p) = inr tt).
  { destruct (fst (exec w (startup_script args) p)) as [e|[]] eqn:He;
      [| reflexivity].
    destruct (exec_error_last w _ p t e Ht He) as (t1 & c & _ & Hw).
    rewrite Hok in Hw. discriminate. }
  split; [exact Hret |].
  assert (Hrest : rest0 = []) by exact (Hr Hret).
  subst rest0. rewrite app_nil_r in Hc.
  split.
  - rewrite Horder. simpl. now rewrite app_nil_r.
  - apply Hwait. rewrite <- Hc, startup_calls_wait_last.
    apply in_or_app. right. now left.
Qed.

(** In a world where nothing fails, on adapter hci0: the seven operations
    are performed, in this order, and [_run] returns. *)
Lemma startup_in_order_calm :
  fst (_run calm hci0 initial_proc) = inr tt /\
  acting (bus_calls (effects (snd (_run calm hci0 initial_proc)))) =
  [ Connect SYSTEM;
    CallSet (adapter_properties hci0) "org.bluez.Adapter1"
      "DiscoverableTimeout" (MkVariant "u" (VInt 0));
    CallSet (adapter_properties hci0) "org.bluez.Adapter1"
      "Discoverable" (MkVariant "b" (VBool true));
    Export "/local/ad2pagent" A2dpAgent_init;
    CallRegisterAgent agent_manager "/local/ad2pagent" "NoInputNoOutput";
    CallRequestDefaultAgent agent_manager "/local/ad2pagent";
    WaitForDisconnect ].
Proof.
  destruct (startup_in_order calm hci0 initial_proc)
    as (t & rest & Ht & _ & _ & _ & _ & Hcalm).
  destruct (Hcalm (fun _ _ => eq_refl)) as (Hr & Ha & _).
  split; [exact Hr |].
  simpl app in Ht. rewrite Ht. exact Ha.
Defined.

Example calm_startup_trace :
  fst (_run calm hci0 initial_proc) = inr tt /\
  acting (bus_calls (effects (snd (_run calm hci0 initial_proc)))) =
  startup_order hci0.
Proof. split; reflexivity. Qed.

(** A bus operation the world refuses is the last entry of the trace, and
    its error is the outcome of the script. *)
Lemma exec_failed_call_ends w ss :
  forall p t t1 c t2 e,
    effects (snd (exec w ss p)) = (effects p ++ t)%list ->
    t = (t1 ++ EBus c :: t2)%list ->
    w (effects p ++ t1)%list c = Some e ->
    t2 = [] /\ fst (exec w ss p) = inl e.
Proof.
  induction ss as [|[lvl fmt args|c0] ss IH]; intros p t t1 c t2 e Ht Hsplit Hw.
  - simpl in Ht. rewrite <- (app_nil_r (effects p)) in Ht at 1.
    apply app_inv_head in Ht. subst t. destruct t1; discriminate.
  - rewrite exec_log in Ht |- *.
    destruct (isEnabledFor lvl p); [| now apply (IH p t t1 c t2 e)].
    destruct (exec_prefix w ss (emit (ELog lvl (percent_format fmt args)) p))
      as (t' & rest & Ht' & _).
    rewrite Ht' in Ht. simpl in Ht. rewrite <- app_assoc in Ht.
    apply app_inv_head in Ht. rewrite <- Ht in Hsplit. simpl in Hsplit.
    destruct t1 as [|x t1]; simpl in Hsplit; [discriminate |].
    injection Hsplit as <- Hsplit.
    apply (IH _ t' t1 c t2 e Ht' Hsplit).
    simpl. now rewrite <- app_assoc.
  - rewrite exec_call in Ht |- *.
    destruct (w (effects p) c0) as [e0|] eqn:Hw0.
    + simpl in Ht. apply app_inv_head in Ht. rewrite <- Ht in Hsplit.
      destruct t1 as [|x t1]; simpl in Hsplit.
      * injection Hsplit as <- <-. rewrite app_nil_r in Hw.
        rewrite Hw in Hw0. injection Hw0 as ->. auto.
      * injection Hsplit as _ Hsplit. destruct t1; discriminate.
    + destruct (exec_prefix w ss (emit (EBus c0) p))
        as (t' & rest & Ht' & _).
      rewrite Ht' in Ht. simpl in Ht. rewrite <- app_assoc in Ht.
      apply app_inv_head in Ht. rewrite <- Ht in Hsplit. simpl in Hsplit.
      destruct t1 as [|x t1]; simpl in Hsplit.
      * injection Hsplit as <- _. rewrite app_nil_r in Hw. congruence.
      * injection Hsplit as <- Hsplit.
        apply (IH _ t' t1 c t2 e Ht' Hsplit).
        simpl. now rewrite <- app_assoc.
Qed.

Lemma split_nth {A} (l a b : list A) (x : A) :
  l = ((a ++ [x]) ++ b)%list ->
  nth_error l (length a) = Some x /\
  (a ++ [x])%list = firstn (S (length a)) l.
Proof.
  intros ->. rewrite <- app_assoc. split.
  - rewrite nth_error_app2 by lia. now rewrite Nat.sub_diag.
  - rewrite app_assoc, firstn_app.
    replace (length (a ++ [x])) with (S (length a))
      by (rewrite length_app; simpl; lia).
    rewrite firstn_all2 by (rewrite length_app; simpl; lia).
    now rewrite Nat.sub_diag, app_nil_r.
Qed.

(** A prefix of the start-up operations that ends with one of the adapter's
    holds none of the three registration operations. *)
Lemma adapter_setup_prefix args a c rest :
  In c (adapter_setup args) ->
  calls_of (startup_script args) = ((a ++ [c]) ++ rest)%list ->
  forallb (fun c' => negb (is_registration c')) (a ++ [c]) = true.
Proof.
  intros Hin Hsplit.
  apply split_nth in Hsplit as [Hnth Hpre]. rewrite Hpre.
  assert (Hset : forall P : Prop,
             (c = Export AGENT_PATH A2dpAgent_init \/
              c = CallRegisterAgent agent_manager AGENT_PATH "NoInputNoOutput" \/
              c = CallRequestDefaultAgent agent_manager AGENT_PATH \/
              c = WaitForDisconnect) -> P).
  { intros P H. exfalso. simpl in Hin.
    destruct H as [-> | [-> | [-> | -> ]]];
      repeat (destruct Hin as [Hin|Hin]; [discriminate |]); exact Hin. }
  remember (length a) as k eqn:Hk. clear Hk Hin.
  do 9 (destruct k as [|k]; [reflexivity |]).
  do 4 (destruct k as [|k];
        [ simpl in Hnth; injection Hnth as <-; apply Hset; tauto |]).
  simpl in Hnth. destruct k; discriminate.
Qed.

(** C6. When an operation that resolves the adapter or sets its
    discoverability is refused, [_run] stops there with that error and its
    trace holds no export, no register-agent and no request-default-agent;
    the error goes through [main] and the process ends with status 1
    (unless what came back was an operator interrupt). *)
Theorem adapter_failure_aborts_before_export
  (w : World) (args : Namespace) (p : Proc) (c : call) (e : exn)
  (t : list effect) :
  In c (adapter_setup args) ->
  effects (snd (_run w args p)) = (effects p ++ t)%list ->
  fails_at w p t c e ->
  fst (_run w args p) = inl e /\
  forallb (fun c' => negb (is_registration c')) (bus_calls t) = true /\
  (p = configured args -> e <> KeyboardInterrupt ->
   fst (main w args initial_proc) = inl e /\
   fst (python w args) = 1%Z).
Proof.
  intros Hin Ht (t1 & t2 & Hsplit & Hw).
  rewrite _run_exec in Ht |- *.
  destruct (exec_failed_call_ends w _ p t t1 c t2 e Ht Hsplit Hw) as [-> Hr].
  split; [exact Hr |]. split.
  - destruct (exec_prefix w (startup_script args) p)
      as (t' & rest & Ht' & Hc & _).
    rewrite Ht' in Ht. apply app_inv_head in Ht. subst t'.
    rewrite Hsplit in Hc |- *.
    rewrite bus_calls_app in Hc |- *. simpl in Hc |- *.
    eapply adapter_setup_prefix; eassumption.
  - intros -> He. rewrite python_run, main_run, _run_exec.
    destruct (exec w (startup_script args) (configured args)) as [[e1|[]] p'];
      simpl in Hr; [| discriminate].
    injection Hr as ->.
    destruct e; [contradiction | |]; auto.
Qed.

(** BlueZ does not know adapter hci0: nothing is registered. *)
Lemma unknown_adapter_aborts :
  exists e,
    fst (_run unknown_adapter hci0 (configured hci0)) = inl e /\
    forallb (fun c' => negb (is_registration c'))
      (bus_calls (effects (snd (_run unknown_adapter hci0 (configured hci0)))))
    = true /\
    fst (python unknown_adapter hci0) = 1%Z.
Proof.
  pose (c := Introspect BLUEZ_BUS_NAME (adapter_path hci0)).
  pose (e := DBusError "org.freedesktop.DBus.Error.UnknownObject"
               "Unknown object /org/bluez/hci0").
  pose (t := [ELog INFO "Connecting to system bus."; EBus (Connect SYSTEM);
              EBus c]).
  assert (Hin : In c (adapter_setup hci0)) by (left; reflexivity).
  assert (Ht : effects (snd (_run unknown_adapter hci0 (configured hci0))) =
               (effects (configured hci0) ++ t)%list) by reflexivity.
  assert (Hf : fails_at unknown_adapter (configured hci0) t c e).
  { exists [ELog INFO "Connecting to system bus."; EBus (Connect SYSTEM)], [].
    split; reflexivity. }
  destruct (adapter_failure_aborts_before_export
              unknown_adapter hci0 (configured hci0) c e t Hin Ht Hf)
    as (H1 & H2 & H3).
  exists e. split; [exact H1 |]. split; [exact H2 |].
  apply H3; [reflexivity | discriminate].
Defined.

(** The same when the operation is refused whenever it is tried: [_run] ends
    with an error, at that operation or before it. *)
Lemma adapter_never_resolved
  (w : World) (args : Namespace) (p : Proc) (c : call) (e : exn) :
  In c (adapter_setup args) ->
  (forall h, w h c = Some e) ->
  exists e' t,
    fst (_run w args p) = inl e' /\
    effects (snd (_run w args p)) = (effects p ++ t)%list /\
    forallb (fun c' => negb (is_registration c')) (bus_calls t) = true.
Proof.
  intros Hin Hw.
  destruct (adapter_setup_split args c Hin) as (pre & post & Hsplit & Hreg).
  rewrite _run_exec.
  destruct (exec_fails w c e (startup_script args) Hw pre post p Hsplit)
    as (e' & t & rest & Hr & Ht & Hc).
  exists e', t. repeat split; auto.
  eapply forallb_prefix; eassumption.
Qed.

Lemma Forall_prefix {A} (P : A -> Prop) (l a b : list A) :
  l = (a ++ b)%list -> Forall P l -> Forall P a.
Proof.
  intros -> H. now apply Forall_app in H.
Qed.

(** C7. The agent is registered with capability NoInputNoOutput, and one
    fixed object path, /local/ad2pagent, is the path of every export,
    register-agent and request-default-agent that [_run] performs; when
    [_run] gets as far as the wait, all three have been performed with it. *)
Theorem agent_registered_at_one_path (w : World) (args : Namespace) (p : Proc) :
  AGENT_PATH = "/local/ad2pagent" /\
  exists t,
    effects (snd (_run w args p)) = (effects p ++ t)%list /\
    Forall (registers_as AGENT_PATH "NoInputNoOutput") (bus_calls t) /\
    (fst (_run w args p) = inr tt \/ In WaitForDisconnect (bus_calls t) ->
     In (Export AGENT_PATH A2dpAgent_init) (bus_calls t) /\
     In (CallRegisterAgent agent_manager AGENT_PATH "NoInputNoOutput")
       (bus_calls t) /\
     In (CallRequestDefaultAgent agent_manager AGENT_PATH) (bus_calls t)).
Proof.
  split; [reflexivity |].
  rewrite _run_exec.
  destruct (exec_prefix w (startup_script args) p)
    as (t & rest & Ht & Hc & _ & Hr).
  exists t. split; [exact Ht |]. split.
  - eapply Forall_prefix; [exact Hc | apply startup_script_registers].
  - intros H.
    assert (Hrest : rest = []).
    { destruct H as [H|H]; [exact (Hr H) |].
      destruct (startup_script_waits_last args) as [_ Hnot].
      rewrite startup_calls_wait_last in Hc.
      exact (prefix_reaching_last _ _ _ _ Hc Hnot H). }
    subst rest. rewrite app_nil_r in Hc. rewrite <- Hc.
    simpl. intuition.
Qed.

(** In a world where nothing fails, on adapter hci0. *)
Lemma agent_registered_calm :
  let t := effects (snd (_run calm hci0 initial_proc)) in
  In (Export "/local/ad2pagent" A2dpAgent_init) (bus_calls t) /\
  In (CallRegisterAgent agent_manager "/local/ad2pagent" "NoInputNoOutput")
    (bus_calls t) /\
  In (CallRequestDefaultAgent agent_manager "/local/ad2pagent") (bus_calls t).
Proof.
  destruct (agent_registered_at_one_path calm hci0 initial_proc)
    as (_ & t & Ht & _ & H).
  simpl app in Ht. cbv zeta. rewrite Ht.
  apply H. left. reflexivity.
Defined.

(** C8. An operator interrupt taken during the blocking wait is absorbed:
    the process ends with status 0 and nothing is reported on standard
    error (the same holds for an interrupt that comes out of [_run] at any
    other point); every other error that comes out of [_run] propagates:
    it is reported and the status is 1. *)
Theorem interrupt_is_clean_exit (w : World) (args : Namespace) :
  ((forall h c, c <> WaitForDisconnect -> w h c = None) ->
   (forall h, w h WaitForDisconnect = Some KeyboardInterrupt) ->
   fst (python w args) = 0%Z /\
   forallb (fun e => negb (is_traceback e)) (snd (python w args)) = true /\
   In (EBus WaitForDisconnect) (snd (python w args))) /\
  (fst (_run w args (configured args)) = inl KeyboardInterrupt ->
   fst (main w args initial_proc) = inr tt /\
   fst (python w args) = 0%Z /\
   forallb (fun e => negb (is_traceback e)) (snd (python w args)) = true) /\
  (forall e,
     e <> KeyboardInterrupt ->
     fst (_run w args (configured args)) = inl e ->
     fst (main w args initial_proc) = inl e /\
     fst (python w args) = 1%Z /\
     exists t, snd (python w args) = (t ++ [ETraceback e])%list).
Proof.
  pose proof (_run_no_traceback w args) as Hn.
  split; [| split].
  - intros Hok Hint.
    destruct (_run_interrupted_in_wait w args (configured args) Hok Hint)
      as [Hr Hin].
    rewrite python_run.
    destruct (_run w args (configured args)) as [[e|[]] p'];
      simpl in Hr; [| discriminate].
    injection Hr as ->. simpl in *. auto.
  - intros Hr. rewrite main_run, python_run.
    destruct (_run w args (configured args)) as [[e|[]] p'];
      simpl in Hr; [| discriminate].
    injection Hr as ->. simpl in *. auto.
  - intros e He Hr. rewrite main_run, python_run.
    destruct (_run w args (configured args)) as [[e1|[]] p'];
      simpl in Hr; [| discriminate].
    injection Hr as ->.
    destruct e; [contradiction | |]; simpl; eauto.
Qed.

(** An interrupt during the wait on adapter hci0, and a start-up that fails
    because BlueZ does not know the adapter. *)
Lemma interrupt_and_failure_runs :
  fst (python interrupted hci0) = 0%Z /\
  fst (python unknown_adapter hci0) = 1%Z.
Proof.
  split.
  - apply (proj1 (interrupt_is_clean_exit interrupted hci0)).
    + intros h c Hc. destruct c; try reflexivity. now contradiction Hc.
    + intros h. reflexivity.
  - apply (proj2 (proj2 (interrupt_is_clean_exit unknown_adapter hci0))
             (DBusError "org.freedesktop.DBus.Error.UnknownObject"
                "Unknown object /org/bluez/hci0")).
    + discriminate.
    + reflexivity.
Defined.

Example interrupted_trace :
  python interrupted hci0 =
  (0%Z,
   [ ELog INFO "Connecting to system bus.";
     EBus (Connect SYSTEM);
     EBus (Introspect "org.bluez" "/org/bluez/hci0");
     EBus (GetProxyObject "org.bluez" "/org/bluez/hci0");
     EBus (GetInterface (adapter_object hci0) "org.freedesktop.DBus.Properties");
     ELog INFO "Enabling infinite discovery on device: hci0.";
     EBus (CallSet (adapter_properties hci0) "org.bluez.Adapter1"
             "DiscoverableTimeout" (MkVariant "u" (VInt 0)));
     EBus (CallSet (adapter_properties hci0) "org.bluez.Adapter1"
             "Discoverable" (MkVariant "b" (VBool true)));
     EBus (Introspect "org.bluez" "/org/bluez");
     EBus (GetProxyObject "org.bluez" "/org/bluez");
     EBus (GetInterface bluez_object "org.bluez.AgentManager1");
     EBus (Export "/local/ad2pagent" A2dpAgent_init);
     ELog INFO "Registering agent.";
     EBus (CallRegisterAgent agent_manager "/local/ad2pagent" "NoInputNoOutput");
     EBus (CallRequestDefaultAgent agent_manager "/local/ad2pagent");
     EBus WaitForDisconnect ]).
Proof. reflexivity. Qed.

Example stubborn_adapter_trace :
  fst (python stubborn_adapter hci0) = 1%Z /\
  bus_calls (snd (python stubborn_adapter hci0)) =
  [ Connect SYSTEM;
    Introspect "org.bluez" "/org/bluez/hci0";
    GetProxyObject "org.bluez" "/org/bluez/hci0";
    GetInterface (adapter_object hci0) "org.freedesktop.DBus.Properties";
    CallSet (adapter_properties hci0) "org.bluez.Adapter1"
      "DiscoverableTimeout" (MkVariant "u" (VInt 0));
    CallSet (adapter_properties hci0) "org.bluez.Adapter1"
      "Discoverable" (MkVariant "b" (VBool true)) ].
Proof. split; reflexivity. Qed.

Example rejection_is_printed_unformatted :
  AuthorizeService A2dpAgent_init "/org/bluez/hci0/dev_AA_BB"
    "0000110a-0000-1000-8000-00805f9b34fb" (configured hci0) =
  (inl (DBusError "org.bluez.Error.Rejected" "Connection rejected"),
   {| root_level := INFO; logger_level := None;
      effects :=
        [ EPrint "Rejecting non-A2DP service from device %s. /org/bluez/hci0/dev_AA_BB" ] |}).
Proof. reflexivity. Qed.

Example verbose_authorize_log :
  effects (snd (AuthorizeService A2dpAgent_init "/org/bluez/hci0/dev_AA_BB"
                  A2DP_UUID (configured hci0_verbose))) =
  [ ELog DEBUG "Authorize Service Device: /org/bluez/hci0/dev_AA_BB, UUID: 0000110d-0000-1000-8000-00805f9b34fb";
    ELog INFO "Authorized A2DP service from device: /org/bluez/hci0/dev_AA_BB." ].
Proof. reflexivity. Qed.

Example passkey_is_logged_in_decimal :
  effects (snd (DisplayPasskey A2dpAgent_init "/org/bluez/hci0/dev_AA_BB"
                  123456 2 (configured hci0_verbose))) =
  [ ELog DEBUG "Display Passkey Device: /org/bluez/hci0/dev_AA_BB, Passkey: 123456" ].
Proof. reflexivity. Qed.

(** * What the callbacks write *)

Lemma append_nil_r (s : string) : s ++ "" = s.
Proof. induction s as [|c s IH]; simpl; congruence. Qed.

(** X1. A rejected service authorization is reported by [print], not through
    the logger: whatever the logging levels, the callback adds one printed
    line, in which the [%s] stays as it is and the device follows after a
    space; the only log record is the debug one, when debug is enabled. *)
Theorem AuthorizeService_rejection_trace
  (self : A2dpAgent) (device uuid : string) (p : Proc) :
  uuid <> A2DP_UUID ->
  snd (AuthorizeService self device uuid p) =
  emit (EPrint ("Rejecting non-A2DP service from device %s. " ++ device))
    (if isEnabledFor DEBUG p
     then emit (ELog DEBUG ("Authorize Service Device: " ++ device
                            ++ ", UUID: " ++ uuid)) p
     else p).
Proof.
  intros Hne. unfold AuthorizeService, _LOGGER_debug.
  rewrite bind_log.
  destruct (String.eqb_spec uuid A2DP_UUID) as [|_]; [contradiction |].
  rewrite bind_print. unfold raise. cbn [snd].
  f_equal. destruct (isEnabledFor DEBUG p); [| reflexivity].
  do 2 f_equal. simpl. now rewrite append_nil_r.
Qed.

Lemma AuthorizeService_rejection_trace_quiet :
  snd (AuthorizeService A2dpAgent_init "/org/bluez/hci0/dev_AA_BB"
         "0000110a-0000-1000-8000-00805f9b34fb" (configured hci0)) =
  emit (EPrint "Rejecting non-A2DP service from device %s. /org/bluez/hci0/dev_AA_BB")
    (configured hci0).
Proof.
  apply (AuthorizeService_rejection_trace A2dpAgent_init
           "/org/bluez/hci0/dev_AA_BB" "0000110a-0000-1000-8000-00805f9b34fb"
           (configured hci0)).
  discriminate.
Defined.

(** X2. An accepted service authorization prints nothing: it adds the debug
    record when debug is enabled and then one info record that names the
    device, when info is enabled. *)
Theorem AuthorizeService_acceptance_trace
  (self : A2dpAgent) (device uuid : string) (p : Proc) :
  uuid = A2DP_UUID ->
  snd (AuthorizeService self device uuid p) =
  let p1 :=
    if isEnabledFor DEBUG p
    then emit (ELog DEBUG ("Authorize Service Device: " ++ device
                           ++ ", UUID: " ++ A2DP_UUID)) p
    else p in
  if isEnabledFor INFO p
  then emit (ELog INFO ("Authorized A2DP service from device: " ++ device ++ "."))
         p1
  else p1.
Proof.
  intros ->. unfold AuthorizeService, _LOGGER_debug, _LOGGER_info.
  rewrite bind_log, String.eqb_refl, bind_log. unfold ret. cbn [snd]. cbv zeta.
  destruct (isEnabledFor DEBUG p) eqn:Hd.
  - change (isEnabledFor INFO (emit _ p)) with (isEnabledFor INFO p).
    destruct (isEnabledFor INFO p); reflexivity.
  - destruct (isEnabledFor INFO p); reflexivity.
Qed.

Lemma AuthorizeService_acceptance_trace_quiet :
  snd (AuthorizeService A2dpAgent_init "/org/bluez/hci0/dev_AA_BB"
         "0000110d-0000-1000-8000-00805f9b34fb" (configured hci0)) =
  emit (ELog INFO "Authorized A2DP service from device: /org/bluez/hci0/dev_AA_BB.")
    (configured hci0).
Proof.
  apply (AuthorizeService_acceptance_trace A2dpAgent_init
           "/org/bluez/hci0/dev_AA_BB" "0000110d-0000-1000-8000-00805f9b34fb"
           (configured hci0)).
  reflexivity.
Defined.

(** Settles the one logger test of a callback that only writes a debug
    record. *)
Ltac debug_only H :=
  unfold Release, RequestPinCode, DisplayPinCode, RequestPasskey, DisplayPasskey,
    RequestConfirmation, RequestAuthorization, Cancel, _LOGGER_debug;
  try rewrite bind_log;
  unfold _LOGGER_log, ret, raise; try rewrite H; cbn [snd].

(** X3. While debug is disabled, no callback other than [AuthorizeService]
    leaves anything behind: the process is exactly as before, also after the
    rejection by [RequestAuthorization]. *)
Theorem callbacks_silent_without_debug
  (self : A2dpAgent) (device pincode : string) (passkey entered : N) (p : Proc) :
  isEnabledFor DEBUG p = false ->
  snd (Release self p) = p /\
  snd (RequestPinCode self device p) = p /\
  snd (DisplayPinCode self device pincode p) = p /\
  snd (RequestPasskey self device p) = p /\
  snd (DisplayPasskey self device passkey entered p) = p /\
  snd (RequestConfirmation self device passkey p) = p /\
  snd (RequestAuthorization self device p) = p /\
  snd (Cancel self p) = p.
Proof.
  intros H. repeat split; debug_only H; reflexivity.
Qed.

Lemma callbacks_silent_by_default :
  snd (RequestAuthorization A2dpAgent_init "/org/bluez/hci0/dev_AA_BB"
         (configured hci0)) = configured hci0 /\
  snd (RequestConfirmation A2dpAgent_init "/org/bluez/hci0/dev_AA_BB" 123456
         (configured hci0)) = configured hci0.
Proof.
  destruct (callbacks_silent_without_debug A2dpAgent_init
              "/org/bluez/hci0/dev_AA_BB" "0000" 123456 0 (configured hci0)
              eq_refl)
    as (_ & _ & _ & _ & _ & Hc & Ha & _).
  split; assumption.
Defined.

(** X4. While debug is enabled, each callback that takes a device writes
    exactly one debug record: its label followed by the device and, where
    there is one, the PIN code or the passkey in decimal; the count of
    entered digits is not written, and [Release] and [Cancel] write
    nothing. *)
Theorem callbacks_debug_records
  (self : A2dpAgent) (device pincode : string) (passkey entered : N) (p : Proc) :
  isEnabledFor DEBUG p = true ->
  snd (RequestPinCode self device p) =
    emit (ELog DEBUG ("Request Pin Code Device: " ++ device)) p /\
  snd (DisplayPinCode self device pincode p) =
    emit (ELog DEBUG ("Display Pin Code Device: " ++ device
                      ++ ", Code: " ++ pincode)) p /\
  snd (RequestPasskey self device p) =
    emit (ELog DEBUG ("Request Passkey Device: " ++ device)) p /\
  snd (DisplayPasskey self device passkey entered p) =
    emit (ELog DEBUG ("Display Passkey Device: " ++ device
                      ++ ", Passkey: " ++ str_of_N passkey)) p /\
  snd (RequestConfirmation self device passkey p) =
    emit (ELog DEBUG ("Request Confirmation Device: " ++ device
                      ++ ", Passkey: " ++ str_of_N passkey)) p /\
  snd (RequestAuthorization self device p) =
    emit (ELog DEBUG ("Request Authorization Device: " ++ device)) p /\
  snd (Release self p) = p /\
  snd (Cancel self p) = p.
Proof.
  intros H. repeat split; debug_only H; try reflexivity;
    do 2 f_equal; simpl; now rewrite append_nil_r.
Qed.

Lemma callbacks_debug_records_verbose :
  snd (DisplayPasskey A2dpAgent_init "/org/bluez/hci0/dev_AA_BB" 123456 2
         (configured hci0_verbose)) =
  emit (ELog DEBUG "Display Passkey Device: /org/bluez/hci0/dev_AA_BB, Passkey: 123456")
    (configured hci0_verbose).
Proof.
  destruct (callbacks_debug_records A2dpAgent_init
              "/org/bluez/hci0/dev_AA_BB" "0000" 123456 2
              (configured hci0_verbose) eq_refl)
    as (_ & _ & _ & H & _).
  exact H.
Defined.

(** * More on start-up *)


(** A script that returns has had every one of its operations accepted. *)
Lemma exec_success_all_accepted w ss :
  forall p t,
    effects (snd (exec w ss p)) = (effects p ++ t)%list ->
    fst (exec w ss p) = inr tt ->
    forall t1 c t2,
      t = (t1 ++ EBus c :: t2)%list -> w (effects p ++ t1)%list c = None.
Proof.
  intros p t Ht Hr t1 c t2 Hsplit.
  destruct (w (effects p ++ t1)%list c) as [e|] eqn:Hw; [| reflexivity].
  destruct (exec_failed_call_ends w ss p t t1 c t2 e Ht Hsplit Hw) as [_ H].
  congruence.
Qed.

Lemma adapter_path_not_root args : adapter_path args <> BLUEZ_BUS_PATH.
Proof. unfold adapter_path. simpl. discriminate. Qed.

Lemma startup_calls_NoDup args : NoDup (calls_of (startup_script args)).
Proof.
  pose proof (adapter_path_not_root args) as Hp.
  simpl.
  repeat (constructor;
          [ simpl; intros H;
            repeat (destruct H as [H|H];
                    [ try discriminate H;
                      try (injection H as H; congruence) |]);
            exact H |]).
  constructor.
Qed.

Lemma NoDup_prefix {A} (l a b : list A) :
  l = (a ++ b)%list -> NoDup l -> NoDup a.
Proof. intros -> H. now apply NoDup_app_remove_r in H. Qed.



(** X5. Start-up stops at the first operation the bus refuses and does
    nothing after it: when [_run] raises, the last entry of its trace is a
    bus operation and the error is what the world answered to it; every
    operation that is followed by anything in the trace was accepted, and so
    was every operation of a run that returned. *)
Theorem startup_stops_at_first_failure (w : World) (args : Namespace) (p : Proc) :
  exists t,
    effects (snd (_run w args p)) = (effects p ++ t)%list /\
    (forall e,
       fst (_run w args p) = inl e ->
       exists t1 c,
         t = (t1 ++ [EBus c])%list /\ w (effects p ++ t1)%list c = Some e) /\
    (forall t1 c t2,
       t = (t1 ++ EBus c :: t2)%list -> t2 <> [] ->
       w (effects p ++ t1)%list c = None) /\
    (fst (_run w args p) = inr tt ->
     forall t1 c t2,
       t = (t1 ++ EBus c :: t2)%list -> w (effects p ++ t1)%list c = None).
Proof.
  rewrite _run_exec.
  destruct (exec_prefix w (startup_script args) p) as (t & rest & Ht & _).
  exists t. split; [exact Ht |]. split; [| split].
  - intros e Hr. eapply exec_error_last; eassumption.
  - intros t1 c t2 Hsplit Hne.
    destruct (w (effects p ++ t1)%list c) as [e|] eqn:Hw; [| reflexivity].
    destruct (exec_failed_call_ends w _ p t t1 c t2 e Ht Hsplit Hw) as [H _].
    contradiction.
  - intros Hr. eapply exec_success_all_accepted; eassumption.
Qed.

(** X6. Start-up never repeats an operation: whatever the world answers, no
    bus operation occurs twice in the trace of [_run]. *)
Theorem startup_never_retries (w : World) (args : Namespace) (p : Proc) :
  exists t,
    effects (snd (_run w args p)) = (effects p ++ t)%list /\
    NoDup (bus_calls t).
Proof.
  rewrite _run_exec.
  destruct (exec_prefix w (startup_script args) p) as (t & rest & Ht & Hc & _).
  exists t. split; [exact Ht |].
  eapply NoDup_prefix; [exact Hc | apply startup_calls_NoDup].
Qed.

Lemma startup_script_well_aimed args :
  Forall (well_aimed args) (calls_of (startup_script args)).
Proof. simpl. repeat constructor; simpl; tauto. Qed.

(** X7. Start-up touches nothing but what it is meant to: every operation in
    a trace of [_run] goes to the system bus and to BlueZ, lookups concern
    the adapter at /org/bluez/<device> or the BlueZ root object, the only
    properties set are DiscoverableTimeout (to 0) and Discoverable (to true)
    on the adapter interface of the adapter, the agent exported carries the
    agent interface name, and registrations go to the agent manager of the
    root object. *)
Theorem startup_well_aimed (w : World) (args : Namespace) (p : Proc) :
  exists t,
    effects (snd (_run w args p)) = (effects p ++ t)%list /\
    Forall (well_aimed args) (bus_calls t).
Proof.
  rewrite _run_exec.
  destruct (exec_prefix w (startup_script args) p) as (t & rest & Ht & Hc & _).
  exists t. split; [exact Ht |].
  eapply Forall_prefix; [exact Hc | apply startup_script_well_aimed].
Qed.








(** * The whole process *)

Lemma info_enabled_when_configured args :
  isEnabledFor INFO (configured args) = true.
Proof. unfold configured. destruct (verbose args); reflexivity. Qed.

(** X11. When the system bus cannot be reached the process does nothing
    else: it has logged that it connects, tried to connect once, and ends
    with status 1, reporting the error of the connection. *)
Theorem bus_unreachable_is_fatal (w : World) (args : Namespace) (e : exn) :
  w [ELog INFO "Connecting to system bus."] (Connect SYSTEM) = Some e ->
  e <> KeyboardInterrupt ->
  python w args =
  (1%Z, [ ELog INFO "Connecting to system bus.";
          EBus (Connect SYSTEM);
          ETraceback e ]).
Proof.
  intros Hw He. rewrite python_run, _run_exec. unfold startup_script.
  rewrite exec_log, info_enabled_when_configured, exec_call.
  change (effects (emit _ (configured args)))
    with [ELog INFO "Connecting to system bus."].
  rewrite Hw. destruct e; [contradiction | |]; reflexivity.
Qed.

Lemma no_bus_run :
  python no_bus hci0 =
  (1%Z, [ ELog INFO "Connecting to system bus.";
          EBus (Connect SYSTEM);
          ETraceback (OtherError "FileNotFoundError" "No such file or directory") ]).
Proof.
  apply (bus_unreachable_is_fatal no_bus hci0
           (OtherError "FileNotFoundError" "No such file or directory")).
  - reflexivity.
  - discriminate.
Defined.

(** X12. When the bus refuses nothing and the connection is closed in the
    end, the process ends with status 0 after these thirteen bus operations,
    in this order: the adapter is resolved first, the agent manager after
    the adapter has been made discoverable, the agent is exported after
    that.  Up to the export, where no request can have been served yet, the
    trace is known entry by entry, the info records included. *)
Theorem clean_run_operations (w : World) (args : Namespace) :
  (forall h c, w h c = None) ->
  fst (python w args) = 0%Z /\
  bus_calls (snd (python w args)) =
  [ Connect SYSTEM;
    Introspect "org.bluez" ("/org/bluez/" ++ device args);
    GetProxyObject "org.bluez" ("/org/bluez/" ++ device args);
    GetInterface (adapter_object args) "org.freedesktop.DBus.Properties";
    CallSet (adapter_properties args) "org.bluez.Adapter1"
      "DiscoverableTimeout" (MkVariant "u" (VInt 0));
    CallSet (adapter_properties args) "org.bluez.Adapter1"
      "Discoverable" (MkVariant "b" (VBool true));
    Introspect "org.bluez" "/org/bluez";
    GetProxyObject "org.bluez" "/org/bluez";
    GetInterface bluez_object "org.bluez.AgentManager1";
    Export "/local/ad2pagent" A2dpAgent_init;
    CallRegisterAgent agent_manager "/local/ad2pagent" "NoInputNoOutput";
    CallRequestDefaultAgent agent_manager "/local/ad2pagent";
    WaitForDisconnect ] /\
  exists rest,
    snd (python w args) =
    ([ ELog INFO "Connecting to system bus.";
       EBus (Connect SYSTEM);
       EBus (Introspect "org.bluez" ("/org/bluez/" ++ device args));
       EBus (GetProxyObject "org.bluez" ("/org/bluez/" ++ device args));
       EBus (GetInterface (adapter_object args) "org.freedesktop.DBus.Properties");
       ELog INFO ("Enabling infinite discovery on device: " ++ device args ++ ".");
       EBus (CallSet (adapter_properties args) "org.bluez.Adapter1"
               "DiscoverableTimeout" (MkVariant "u" (VInt 0)));
       EBus (CallSet (adapter_properties args) "org.bluez.Adapter1"
               "Discoverable" (MkVariant "b" (VBool true)));
       EBus (Introspect "org.bluez" "/org/bluez");
       EBus (GetProxyObject "org.bluez" "/org/bluez");
       EBus (GetInterface bluez_object "org.bluez.AgentManager1");
       EBus (Export "/local/ad2pagent" A2dpAgent_init) ] ++ rest)%list.
Proof.
  intros Hok. rewrite python_run, _run_exec. unfold startup_script.
  repeat first
    [ rewrite exec_log;
      change (isEnabledFor INFO ?q) with (isEnabledFor INFO (configured args));
      rewrite info_enabled_when_configured
    | rewrite exec_call, Hok ].
  split; [reflexivity |]. split; [reflexivity |].
  eexists. reflexivity.
Qed.

Lemma clean_run_operations_calm :
  fst (python calm hci0) = 0%Z /\
  bus_calls (snd (python calm hci0)) = calls_of (startup_script hci0).
Proof.
  destruct (clean_run_operations calm hci0 (fun _ _ => eq_refl))
    as (H0 & Hcalls & _).
  split; [exact H0 |]. rewrite Hcalls. reflexivity.
Defined.

(** Two processes with the same trace so far, which agree on whether the
    levels a script logs at are enabled, run the script alike. *)
Lemma exec_same w ss :
  forall p1 p2,
    effects p1 = effects p2 ->
    (forall lvl fmt args,
       In (SLog lvl fmt args) ss -> isEnabledFor lvl p1 = isEnabledFor lvl p2) ->
    fst (exec w ss p1) = fst (exec w ss p2) /\
    effects (snd (exec w ss p1)) = effects (snd (exec w ss p2)).
Proof.
  induction ss as [|[lvl fmt args|c] ss IH]; intros p1 p2 He Hl.
  - split; [reflexivity | exact He].
  - rewrite !exec_log.
    rewrite <- (Hl lvl fmt args (or_introl eq_refl)).
    destruct (isEnabledFor lvl p1).
    + apply IH.
      * simpl. now rewrite He.
      * intros l f a Hin. apply (Hl l f a). now right.
    + apply IH; [exact He |].
      intros l f a Hin. apply (Hl l f a). now right.
  - rewrite !exec_call. rewrite <- He.
    destruct (w (effects p1) c); [simpl; now rewrite He |].
    apply IH.
    + simpl. now rewrite He.
    + intros l f a Hin. apply (Hl l f a). now right.
Qed.

(** X13. The verbose flag changes nothing in what start-up does on the bus:
    for the same device and the same answers of the bus, [_run] ends alike,
    the process ends with the same status, and the same bus operations have
    been performed, whether or not debug messages were asked for. *)
Theorem verbose_does_not_change_operations (w : World) (args1 args2 : Namespace) :
  device args1 = device args2 ->
  fst (_run w args1 (configured args1)) = fst (_run w args2 (configured args2)) /\
  fst (python w args1) = fst (python w args2) /\
  bus_calls (snd (python w args1)) = bus_calls (snd (python w args2)).
Proof.
  intros Hd.
  assert (Hs : startup_script args1 = startup_script args2).
  { destruct args1 as [v1 d1], args2 as [v2 d2]. simpl in Hd. subst d2.
    reflexivity. }
  rewrite !python_run, !_run_exec, <- Hs.
  destruct (exec_same w (startup_script args1)
              (configured args1) (configured args2) eq_refl) as [Hr He].
  { intros lvl fmt a Hin. simpl in Hin.
    repeat (destruct Hin as [Hin|Hin];
            [ try discriminate Hin; injection Hin as <- _ _;
              now rewrite !info_enabled_when_configured |]).
    contradiction. }
  destruct (exec w (startup_script args1) (configured args1)) as [r1 q1],
           (exec w (startup_script args1) (configured args2)) as [r2 q2].
  simpl in Hr, He. subst r2. rewrite He.
  repeat split; reflexivity.
Qed.

Lemma verbose_does_not_change_operations_hci0 :
  fst (python registration_refused hci0_verbose) =
  fst (python registration_refused hci0) /\
  bus_calls (snd (python registration_refused hci0_verbose)) =
  bus_calls (snd (python registration_refused hci0)).
Proof.
  destruct (verbose_does_not_change_operations
              registration_refused hci0_verbose hci0 eq_refl)
    as (_ & H1 & H2).
  split; assumption.
Defined.

